(** * convert_nndc71: the NNDC ENDF/B-VII.1 download-and-convert pipeline

  A shallow embedding of [convert_nndc71.py].  The script is a flat
  sequence of module-level stages (download, MD5 verification, extraction,
  ZAID fixes, HDF5 conversion, manifest export) acting on the file system
  and on a handful of module-level variables.  Each stage is embedded as a
  computation in a state / exception / trace monad; the external
  collaborators (HTTP helper, hashlib, zipfile, tarfile, pathlib globbing,
  the openmc.data parsers and writers) are the fields of the class
  [Collaborators]. *)

From stdpp Require Import gmap strings list sorting pretty.

Open Scope string_scope.
Open Scope list_scope.
Open Scope nat_scope.
Open Scope stdpp_scope.

(** ** Python strings *)

Module Str.

(** ['-'.join(parts)] *)
Definition join (sep : string) (parts : list string) : string :=
  String.concat sep parts.

(** [s[n:]] *)
Fixpoint drop (n : nat) (s : string) : string :=
  match n, s with
  | O, _ => s
  | S _, EmptyString => EmptyString
  | S n', String _ s' => drop n' s'
  end.

(** [s.startswith(p)] *)
Fixpoint startswith (p s : string) : bool :=
  match p, s with
  | EmptyString, _ => true
  | String _ _, EmptyString => false
  | String a p', String b s' => if decide (a = b) then startswith p' s' else false
  end.

(** [s.endswith(suffix)] *)
Definition endswith (s suffix : string) : bool :=
  let n := String.length s in
  let m := String.length suffix in
  if decide (m ≤ n)%nat then bool_decide (drop (n - m) s = suffix) else false.

(** [text.replace(old, new, 1)]: the leftmost occurrence of [old] is
    replaced, the scan going left to right. *)
Fixpoint replace_first (old new text : string) : string :=
  if startswith old text then new +:+ drop (String.length old) text
  else match text with
       | EmptyString => EmptyString
       | String c rest => String c (replace_first old new rest)
       end.



End Str.

(** ** pathlib paths

  A path is the list of its components ([PurePath.parts]).  File names
  taken from the release table, from the fix table and from record names
  are single components. *)

Abbreviation Path := (list string).

Module Pathlib.

(** [Path(s)] for a plain file or directory name. *)
Definition of_name (s : string) : Path := [s].

(** [p / s] and [p.joinpath(a, b, ...)] *)
Definition div (p : Path) (s : string) : Path := p ++ [s].
Definition joinpath (p : Path) (parts : list string) : Path := p ++ parts.

(** [p.name] *)
Definition name (p : Path) : string := default "" (last p).

(** [str(p)] *)
Definition str (p : Path) : string :=
  match p with
  | [] => "."
  | "/" :: rest => "/" +:+ Str.join "/" rest
  | _ => Str.join "/" p
  end.

(** [p <= q]: paths compare as their lists of parts, each part compared
    as a string, code point by code point. *)
Fixpoint leb (p q : Path) : bool :=
  match p, q with
  | [], _ => true
  | _ :: _, [] => false
  | a :: p', b :: q' =>
      if decide (a = b) then leb p' q' else String.leb a b
  end.

Definition le (p q : Path) : Prop := leb p q.

#[global] Instance le_dec : RelDecision le.
Proof. intros p q. unfold le. apply _. Defined.

(** [sorted(paths)] *)
Definition sorted (paths : list Path) : list Path := merge_sort le paths.

(** [q] lies in the tree rooted at [p]. *)
Definition under (p q : Path) : Prop := p `prefix_of` q.

End Pathlib.

Infix "</>" := Pathlib.div (at level 40, left associativity).

(** ** Command line *)

Record Args := mkArgs {
  args_destination : Path;
  args_download : bool;
  args_extract : bool;
  args_libver : string;
  args_particles : list string;
}.

(** What [argparse] lets through: [choices] for [--libver] and for each
  particle, and [nargs='+']. *)
Definition args_wf (args : Args) : Prop :=
  args_libver args ∈ ["earliest"; "latest"] ∧
  args_particles args ≠ [] ∧
  Forall (λ p, p ∈ ["neutron"; "photon"]) (args_particles args).

(** ** The release table *)

Definition library_name : string := "nndc".
Definition release : string := "b7.1".
Definition ace_files_dir : Path :=
  Pathlib.of_name (Str.join "-" [library_name; release; "ace"]).
Definition endf_files_dir : Path :=
  Pathlib.of_name (Str.join "-" [library_name; release; "endf"]).

(** A lazy [directory.rglob(pattern)] generator. *)
Record Rglob := mkRglob { rglob_dir : Path; rglob_pattern : string }.

(** The attributes of one particle of one release.  ['checksums'] is the
  only optional key; the generators are kept under their keys. *)
Record Details := mkDetails {
  base_url : string;
  compressed_files : list string;
  checksums : option (list string);
  file_type : string;
  files : list (string * Rglob);
  compressed_file_size : Z;
  uncompressed_file_size : Z;
}.

(** Python dictionaries keyed by strings, in insertion order. *)
Abbreviation Dict V := (list (string * V)).

Fixpoint dict_get {V} (d : Dict V) (k : string) : option V :=
  match d with
  | [] => None
  | (k', v) :: d' => if decide (k' = k) then Some v else dict_get d' k
  end.

Definition dict_keys {V} (d : Dict V) : list string := d.*1.

(** Iterating a [Details] dictionary yields its keys. *)
Definition details_keys (d : Details) : list string :=
  ["base_url"; "compressed_files"]
  ++ (if checksums d is Some _ then ["checksums"] else [])
  ++ ["file_type"] ++ dict_keys (files d)
  ++ ["compressed_file_size"; "uncompressed_file_size"].

Definition release_details : Dict (Dict Details) :=
  [ ("b7.1",
   [ ("neutron",
      {| base_url := "http://www.nndc.bnl.gov/endf/b7.1/aceFiles/";
         compressed_files := ["ENDF-B-VII.1-neutron-293.6K.tar.gz";
                              "ENDF-B-VII.1-tsl.tar.gz"];
         checksums := Some ["9729a17eb62b75f285d8a7628ace1449";
                            "e17d827c92940a30f22f096d910ea186"];
         file_type := "ace";
         files := [ ("ace_files", mkRglob ace_files_dir "[aA-zZ]*.ace");
                    ("sab_files", mkRglob ace_files_dir "*.acer") ];
         compressed_file_size := 497;
         uncompressed_file_size := 1200 |});
     ("photon",
      {| base_url := "http://www.nndc.bnl.gov/endf/b7.1/zips/";
         compressed_files := ["ENDF-B-VII.1-photoat.zip";
                              "ENDF-B-VII.1-atomic_relax.zip"];
         checksums := None;
         file_type := "endf";
         files := [ ("photo_files",
                     mkRglob (endf_files_dir </> "photoat") "*.endf");
                    ("atom_files",
                     mkRglob (endf_files_dir </> "atomic_relax") "*.endf") ];
         compressed_file_size := 9;
         uncompressed_file_size := 45 |}) ]) ].

(** ** External collaborators

  Everything the script delegates: the HTTP helper, [hashlib.md5], the
  archive readers, [Path.rglob], the three [openmc.data] parsers with the
  derived name of a record, and the two serialisers.  The readers and
  parsers answer [None] where the Python call raises. *)

Class Collaborators := {
  Record_ : Type;
  record_name : Record_ → string;
  download : string → gmap Path string → option (gmap Path string);
  md5_hexdigest : string → string;
  zip_members : string → option (list (Path * string));
  tar_members : string → option (list (Path * string));
  rglob : gmap Path string → Path → string → list Path;
  IncidentNeutron_from_ace : string → option Record_;
  ThermalScattering_from_ace : string → option Record_;
  IncidentPhoton_from_endf : string → string → option Record_;
  hdf5_bytes : Record_ → string → string;
  xml_bytes : list Path → string;
}.

(** ** Effects *)

Inductive exn :=
  | KeyError (key : string)
  | NameError (var : string)
  | FileNotFoundError (p : Path)
  | IOError (msg : string)
  | DownloadError (url : string)
  | BadArchive (f : string)
  | ParseError (p : Path)
  | ValueError (msg : string).

Inductive AceClass := IncidentNeutron | ThermalScattering.

(** The module-level state: the file system, the [DataLibrary] being
  filled, and the module-level variables that are read after the loop or
  branch that assigns them. *)
Record state := mkState {
  fs : gmap Path string;
  library : list Path;
  var_f : option string;
  var_checksum : option string;
  var_downloadsum : option string;
  var_extraction_dir : option Path;
}.

Section Pipeline.
Context `{C : Collaborators}.

(** What a run does to the outside world, in order. *)
Inductive event :=
  | Print (line : string)
  | Download (url : string)
  | Open (p : Path) (mode : string)
  | Md5 (f : string) (digest : string)
  | ZipExtractAll (f : string) (dir : Path)
  | TarExtractAll (f : string) (mode : string) (dir : Path)
  | Mkdir (p : Path)
  | FromAce (cls : AceClass) (p : Path)
  | FromEndf (photo atom : Path)
  | ExportToHdf5 (data : Record_) (p : Path) (mode libver : string)
  | RegisterFile (p : Path)
  | ExportToXml (p : Path) (entries : list Path).

Inductive outcome (A : Type) :=
  | Done (a : A)
  | Raised (e : exn).
#[global] Arguments Done {A} a.
#[global] Arguments Raised {A} e.

Record run (A : Type) := mkRun {
  res : outcome A;
  final : state;
  trace : list event;
}.
#[global] Arguments mkRun {A} res final trace.
#[global] Arguments res {A} r.
#[global] Arguments final {A} r.
#[global] Arguments trace {A} r.

Definition M (A : Type) : Type := state → run A.

Definition ret {A} (a : A) : M A := λ st, mkRun (Done a) st [].

Definition bind {A B} (m : M A) (k : A → M B) : M B := λ st,
  match m st with
  | mkRun (Done a) st' t =>
      match k a st' with
      | mkRun r st'' t' => mkRun r st'' (t ++ t')
      end
  | mkRun (Raised e) st' t => mkRun (Raised e) st' t
  end.

Definition raise {A} (e : exn) : M A := λ st, mkRun (Raised e) st [].
Definition emit (e : event) : M unit := λ st, mkRun (Done ()) st [e].
Definition get : M state := λ st, mkRun (Done st) st [].
Definition modify (g : state → state) : M unit := λ st, mkRun (Done ()) (g st) [].

#[global] Instance M_ret : MRet M := @ret.
#[global] Instance M_bind : MBind M := λ A B k m, bind m k.

(** [for x in xs: body] *)
Fixpoint for_each {A} (xs : list A) (body : A → M unit) : M unit :=
  match xs with
  | [] => ret ()
  | x :: xs' => body x;; for_each xs' body
  end.

(** [if c: body] *)
Definition when (c : bool) (body : M unit) : M unit :=
  if c then body else ret ().

(** [d[k]] *)
Definition getitem {V} (d : Dict V) (k : string) : M V :=
  match dict_get d k with
  | Some v => ret v
  | None => raise (KeyError k)
  end.

(** Reading a module-level variable. *)
Definition read_var {A} (name : string) (proj : state → option A) : M A :=
  st ← get;
  match proj st with
  | Some v => ret v
  | None => raise (NameError name)
  end.

Definition with_fs (st : state) (m : gmap Path string) : state :=
  mkState m (library st) (var_f st) (var_checksum st) (var_downloadsum st)
          (var_extraction_dir st).
Definition with_library (st : state) (l : list Path) : state :=
  mkState (fs st) l (var_f st) (var_checksum st) (var_downloadsum st)
          (var_extraction_dir st).
Definition with_f (st : state) (f : string) : state :=
  mkState (fs st) (library st) (Some f) (var_checksum st) (var_downloadsum st)
          (var_extraction_dir st).
Definition with_checksum (st : state) (c : string) : state :=
  mkState (fs st) (library st) (var_f st) (Some c) (var_downloadsum st)
          (var_extraction_dir st).
Definition with_downloadsum (st : state) (d : string) : state :=
  mkState (fs st) (library st) (var_f st) (var_checksum st) (Some d)
          (var_extraction_dir st).
Definition with_extraction_dir (st : state) (d : Path) : state :=
  mkState (fs st) (library st) (var_f st) (var_checksum st)
          (var_downloadsum st) (Some d).

Definition set_fs (g : gmap Path string → gmap Path string) : M unit :=
  modify (λ st, with_fs st (g (fs st))).
Definition set_library (l : list Path) : M unit :=
  modify (λ st, with_library st l).
Definition set_f (f : string) : M unit :=
  modify (λ st, with_f st f).
Definition set_checksum (c : string) : M unit :=
  modify (λ st, with_checksum st c).
Definition set_downloadsum (d : string) : M unit :=
  modify (λ st, with_downloadsum st d).
Definition set_extraction_dir (d : Path) : M unit :=
  modify (λ st, with_extraction_dir st d).

(** [print(line)] *)
Definition print (line : string) : M unit := emit (Print line).

(** [open(p, mode).read()] for a read mode *)
Definition read_file (p : Path) (mode : string) : M string :=
  emit (Open p mode);;
  st ← get;
  match fs st !! p with
  | Some content => ret content
  | None => raise (FileNotFoundError p)
  end.

(** [open(p, 'w').write(text)] *)
Definition write_file (p : Path) (text : string) : M unit :=
  emit (Open p "w");;
  set_fs (λ m, <[p := text]> m).


(** ** The stages of the script *)

(** The totals quoted in the warning: the loop over [('neutron', 'photon')]. *)
Fixpoint file_sizes (rd : Dict (Dict Details)) (ps : list string) (acc : Z * Z)
  : M (Z * Z) :=
  match ps with
  | [] => ret acc
  | p :: ps' =>
      rel ← getitem rd release;
      d ← getitem rel p;
      file_sizes rd ps' (acc.1 + compressed_file_size d,
                         acc.2 + uncompressed_file_size d)%Z
  end.

Definition download_warning (compressed uncompressed : Z) : string :=
  "
WARNING: This script will download up to " +:+ pretty compressed +:+
  " MB of data. Extracting and
processing the data may require as much as " +:+ pretty uncompressed +:+
  " MB of additional free disk
space. This script downloads ENDF/B-VII.1 incident neutron ACE data and
incident photon ENDF data from NNDC and convert it to an HDF5 library
for use with OpenMC. This data is used for OpenMC's regression test suite.
".

(** [download(url)] *)
Definition download_url (url : string) : M unit :=
  emit (Download url);;
  st ← get;
  match download url (fs st) with
  | Some m => set_fs (λ _, m)
  | None => raise (DownloadError url)
  end.

(** DOWNLOAD FILES FROM NNDC SITE *)
Definition download_files (rd : Dict (Dict Details)) (args : Args)
    (warning : string) : M unit :=
  when (args_download args) (
    print warning;;
    for_each (args_particles args) (λ particle,
      rel ← getitem rd release;
      d ← getitem rel particle;
      for_each (compressed_files d) (λ f,
        set_f f;;
        download_url (base_url d +:+ f)))).

Definition checksum_message (f : string) : string :=
  "MD5 checksum for " +:+ f +:+ " does not match. If this is your first " +:+
  "time receiving this message, please re-run the script. " +:+
  "Otherwise, please contact OpenMC developers by emailing " +:+
  "openmc-users@googlegroups.com.".

(** VERIFY MD5 CHECKSUMS.  The membership test and the two lookups are made
    on [release_details[release]], the dictionary keyed by particle; the
    comparison follows the inner loop and reads the variables it left. *)
Definition verify_md5_checksums (rd : Dict (Dict Details)) (args : Args)
  : M unit :=
  when (args_download args) (
    print "Verifying MD5 checksums...";;
    for_each (args_particles args) (λ particle,
      rel ← getitem rd release;
      when (bool_decide ("checksums" ∈ dict_keys rel)) (
        cf ← getitem rel "compressed_files";
        cs ← getitem rel "checksums";
        for_each (zip (details_keys cf) (details_keys cs)) (λ '(f, checksum),
          set_f f;;
          set_checksum checksum;;
          content ← read_file (Pathlib.of_name f) "rb";
          emit (Md5 f (md5_hexdigest content));;
          set_downloadsum (md5_hexdigest content));;
        downloadsum ← read_var "downloadsum" var_downloadsum;
        checksum ← read_var "checksum" var_checksum;
        when (bool_decide (downloadsum ≠ checksum)) (
          f ← read_var "f" var_f;
          raise (IOError (checksum_message f)))))).

(** [zipfile.ZipFile(f, 'r')] and [tarfile.open(f, 'r')]: the archive is
    opened and its directory read. *)
Definition open_archive (f : string)
    (members : string → option (list (Path * string)))
  : M (list (Path * string)) :=
  st ← get;
  match fs st !! Pathlib.of_name f with
  | None => raise (FileNotFoundError (Pathlib.of_name f))
  | Some content =>
      match members content with
      | Some ms => ret ms
      | None => raise (BadArchive f)
      end
  end.

(** [archive.extractall(dir)]: every member is written below [dir], under
    its path inside the archive. *)
Definition extractall (dir : Path) (ms : list (Path * string)) : M unit :=
  set_fs (λ m, foldl (λ m pc, <[(dir ++ pc.1)%list := pc.2]> m) m ms).

Definition extract_file (f : string) : M unit :=
  if Str.endswith f ".zip" then
    zipf ← open_archive f zip_members;
    print ("Extracting " +:+ f +:+ "...");;
    dir ← read_var "extraction_dir" var_extraction_dir;
    emit (ZipExtractAll f dir);;
    extractall dir zipf
  else
    tgz ← open_archive f tar_members;
    print ("Extracting " +:+ f +:+ "...");;
    dir ← read_var "extraction_dir" var_extraction_dir;
    emit (TarExtractAll f "r" dir);;
    extractall dir tgz.

(** The body of the loop over particles: the [if]/[elif] on the file type
    (there is no [else]), then the loop over the archives. *)
Definition extract_particle (d : Details) : M unit :=
  (if decide (file_type d = "ace") then set_extraction_dir ace_files_dir
   else if decide (file_type d = "endf") then set_extraction_dir endf_files_dir
   else ret ());;
  for_each (compressed_files d) (λ f,
    set_f f;;
    extract_file f).

(** EXTRACT FILES FROM TGZ *)
Definition extract_files (rd : Dict (Dict Details)) (args : Args) : M unit :=
  when (args_extract args) (
    for_each (args_particles args) (λ particle,
      rel ← getitem rd release;
      d ← getitem rel particle;
      extract_particle d)).

Definition fixes : list (string * string * string) :=
  [ ("bebeo.acer", "8016", "   0");
    ("obeo.acer", "4009", "   0") ].

Definition fix_zaid (fix_ : string * string * string) : M unit :=
  let '(table, old, new) := fix_ in
  let filename := ace_files_dir </> table in
  text ← read_file filename "r";
  write_file filename (Str.replace_first old new text).

(** FIX ZAID ASSIGNMENTS FOR VARIOUS S(A,B) TABLES *)
Definition fix_zaid_assignments (args : Args) : M unit :=
  when (bool_decide ("neutron" ∈ args_particles args)) (
    print "Fixing ZAIDs for S(a,b) tables";;
    for_each fixes fix_zaid).

(** Create output directory if it doesn't exist *)
Definition make_destinations (args : Args) : M unit :=
  for_each (args_particles args) (λ particle,
    emit (Mkdir (args_destination args </> particle))).

(** The parser behind [cls.from_ace]. *)
Definition ace_parser (cls : AceClass) : string → option Record_ :=
  match cls with
  | IncidentNeutron => IncidentNeutron_from_ace
  | ThermalScattering => ThermalScattering_from_ace
  end.

(** [cls.from_ace(path)] *)
Definition from_ace (cls : AceClass) (path : Path) : M Record_ :=
  emit (FromAce cls path);;
  st ← get;
  match fs st !! path with
  | None => raise (FileNotFoundError path)
  | Some content =>
      match ace_parser cls content with
      | Some data => ret data
      | None => raise (ParseError path)
      end
  end.

(** [openmc.data.IncidentPhoton.from_endf(photo_path, atom_path)] *)
Definition from_endf (photo_path atom_path : Path) : M Record_ :=
  emit (FromEndf photo_path atom_path);;
  st ← get;
  match fs st !! photo_path with
  | None => raise (FileNotFoundError photo_path)
  | Some photo =>
      match fs st !! atom_path with
      | None => raise (FileNotFoundError atom_path)
      | Some atom =>
          match IncidentPhoton_from_endf photo atom with
          | Some data => ret data
          | None => raise (ParseError photo_path)
          end
      end
  end.

(** [data.export_to_hdf5(h5_file, 'w', libver=libver)]: mode ['w'] creates
    the file and truncates one that is there. *)
Definition export_to_hdf5 (data : Record_) (h5_file : Path) (libver : string)
  : M unit :=
  emit (ExportToHdf5 data h5_file "w" libver);;
  set_fs (λ m, <[h5_file := hdf5_bytes data libver]> m).

(** [library.register_file(h5_file)] *)
Definition register_file (h5_file : Path) : M unit :=
  emit (RegisterFile h5_file);;
  st ← get;
  set_library (library st ++ [h5_file]).

(** [library.export_to_xml(path)] *)
Definition export_to_xml (path : Path) : M unit :=
  st ← get;
  emit (ExportToXml path (library st));;
  set_fs (λ m, <[path := xml_bytes (library st)]> m).

(** [sorted(details[key])]: the generator is run when it is sorted. *)
Definition sorted_files (details : Details) (key : string) : M (list Path) :=
  g ← getitem (files details) key;
  st ← get;
  ret (Pathlib.sorted (rglob (fs st) (rglob_dir g) (rglob_pattern g))).

Definition h5_path (args : Args) (particle : string) (data : Record_) : Path :=
  Pathlib.joinpath (args_destination args) [particle; record_name data +:+ ".h5"].

Definition convert_ace (args : Args) (particle : string) (cls : AceClass)
    (path : Path) : M unit :=
  print ("Converting: " +:+ Pathlib.name path);;
  data ← from_ace cls path;
  let h5_file := h5_path args particle data in
  export_to_hdf5 data h5_file (args_libver args);;
  register_file h5_file.

Definition convert_endf (args : Args) (particle : string)
    (pair : Path * Path) : M unit :=
  let '(photo_path, atom_path) := pair in
  print ("Converting: " +:+ Pathlib.name photo_path +:+ " " +:+
         Pathlib.name atom_path);;
  data ← from_endf photo_path atom_path;
  let h5_file := h5_path args particle data in
  export_to_hdf5 data h5_file (args_libver args);;
  register_file h5_file.

Definition convert_particle (rd : Dict (Dict Details)) (args : Args)
    (particle : string) : M unit :=
  rel ← getitem rd release;
  details ← getitem rel particle;
  if decide (particle = "neutron") then
    for_each [ (IncidentNeutron, "ace_files");
               (ThermalScattering, "sab_files") ] (λ '(cls, key),
      paths ← sorted_files details key;
      for_each paths (convert_ace args particle cls))
  else if decide (particle = "photon") then
    photo ← sorted_files details "photo_files";
    atom ← sorted_files details "atom_files";
    for_each (zip photo atom) (convert_endf args particle)
  else ret ().

(** GENERATE HDF5 LIBRARY *)
Definition generate_hdf5_library (rd : Dict (Dict Details)) (args : Args)
  : M unit :=
  make_destinations args;;
  set_library [];;
  for_each (args_particles args) (convert_particle rd args).

Definition cross_sections_xml (args : Args) : Path :=
  args_destination args </> "cross_sections.xml".

(** Write cross_sections.xml *)
Definition write_cross_sections_xml (args : Args) : M unit :=
  print ("Writing " +:+ " " +:+ Pathlib.str (cross_sections_xml args));;
  export_to_xml (cross_sections_xml args).

(** The whole script, on a table [rd]. *)
Definition script (rd : Dict (Dict Details)) (args : Args) : M unit :=
  sizes ← file_sizes rd ["neutron"; "photon"] (0, 0)%Z;
  download_files rd args (download_warning sizes.1 sizes.2);;
  verify_md5_checksums rd args;;
  extract_files rd args;;
  fix_zaid_assignments args;;
  generate_hdf5_library rd args;;
  write_cross_sections_xml args.

(** The script as written, on its own table. *)
Definition main (args : Args) : M unit := script release_details args.

(** A fresh interpreter over a file system: no library yet, no variable
    assigned. *)
Definition initial (m : gmap Path string) : state :=
  mkState m [] None None None None.

End Pipeline.

(** ** Vocabulary of the statements

    Projections of a trace, shapes of runs and relations between states in
    which the properties below are stated. *)

Section Vocabulary.
Context `{C : Collaborators}.
Implicit Types (rd : Dict (Dict Details)) (args : Args) (t : list event).

(** A property of (state before, events, state after) that holds of the
    empty run and composes along sequencing holds of a whole computation as
    soon as it holds of its primitive steps. *)
Class Compositional (Q : state → list event → state → Prop) := {
  comp_nil st : Q st [] st;
  comp_app st1 t1 st2 t2 st3 : Q st1 t1 st2 → Q st2 t2 st3 → Q st1 (t1 ++ t2) st3;
}.

Definition satisfies (Q : state → list event → state → Prop) {A} (m : M A)
  : Prop :=
  ∀ st, Q st (trace (m st)) (final (m st)).

(** Digest computations and [open] calls of the script itself. *)
Definition is_md5 (e : event) : Prop :=
  match e with Md5 _ _ => True | _ => False end.

Definition is_open (e : event) : Prop :=
  match e with Open _ _ => True | _ => False end.

(** A property of every event of every run of [m]. *)
Definition emits_only (P : event → Prop) {A} (m : M A) : Prop :=
  satisfies (λ _ t _, Forall P t) m.

(** The extraction calls of a trace, in order. *)
Definition extraction_of (e : event) : option event :=
  match e with
  | ZipExtractAll _ _ | TarExtractAll _ _ _ => Some e
  | _ => None
  end.

Definition extractions (t : list event) : list event := omap extraction_of t.

(** The routine an archive name selects, and the directory its particle's
    file type selects. *)
Definition route (dir : Path) (f : string) : event :=
  if Str.endswith f ".zip" then ZipExtractAll f dir
  else TarExtractAll f "r" dir.

Definition target_dir (d : Details) : Path :=
  if decide (file_type d = "ace") then ace_files_dir else endf_files_dir.


(** The artifacts written, the files registered and the manifests
    serialised by a trace, in order. *)
Definition export_of (e : event) : option Path :=
  match e with ExportToHdf5 _ p _ _ => Some p | _ => None end.

Definition registration_of (e : event) : option Path :=
  match e with RegisterFile p => Some p | _ => None end.

Definition manifest_of (e : event) : option (Path * list Path) :=
  match e with ExportToXml p entries => Some (p, entries) | _ => None end.

Definition exports (t : list event) : list Path := omap export_of t.

Definition registrations (t : list event) : list Path := omap registration_of t.

Definition manifests (t : list event) : list (Path * list Path) :=
  omap manifest_of t.


(** Every export is immediately followed by the registration of the file
    just written, and there is no other registration. *)
Inductive paired : list event → Prop :=
  | paired_nil : paired []
  | paired_other e t :
      export_of e = None → registration_of e = None →
      paired t → paired (e :: t)
  | paired_export data p mode libver t :
      paired t →
      paired (ExportToHdf5 data p mode libver :: RegisterFile p :: t).

(** The library holds what was registered since the given state. *)
Definition tracks_library (st : state) (t : list event) (st' : state) : Prop :=
  paired t ∧ library st' = library st ++ registrations t.

(** Neither an export, nor a registration, nor a manifest. *)
Definition quiet (e : event) : Prop :=
  export_of e = None ∧ registration_of e = None ∧ manifest_of e = None.


(** Stages that neither export, register, serialise a manifest nor touch
    the library. *)
Definition silent (st : state) (t : list event) (st' : state) : Prop :=
  Forall quiet t ∧ library st' = library st.







(** Two file systems with the same files outside the destination tree. *)
Definition off_destination args (m1 m2 : gmap Path string) : Prop :=
  ∀ p, ¬ Pathlib.under (args_destination args) p → m1 !! p = m2 !! p.






End Vocabulary.

(** ** A small world for concrete runs

    Records are represented by their derived names, archives are empty,
    the network serves nothing new, and the directory listings are fixed:
    one ACE table, two photoatomic files and one atomic-relaxation file. *)

Definition toy_listing (dir : Path) (pattern : string) : list Path :=
  if decide (dir = ace_files_dir ∧ pattern = "[aA-zZ]*.ace") then
    [ace_files_dir </> "U235.ace"]
  else if decide (dir = endf_files_dir </> "photoat") then
    [dir </> "photoat-002_He_000.endf"; dir </> "photoat-001_H_000.endf"]
  else if decide (dir = endf_files_dir </> "atomic_relax") then
    [dir </> "atom-001_H_000.endf"]
  else [].

Definition toy : Collaborators := {|
  Record_ := string;
  record_name := λ name, name;
  download := λ _ m, Some m;
  md5_hexdigest := λ _, "00000000000000000000000000000000";
  zip_members := λ _, Some [];
  tar_members := λ _, Some [];
  rglob := λ _ dir pattern, toy_listing dir pattern;
  IncidentNeutron_from_ace := λ content, Some content;
  ThermalScattering_from_ace := λ content, Some content;
  IncidentPhoton_from_endf := λ photo _, Some photo;
  hdf5_bytes := λ name _, name;
  xml_bytes := λ entries, Str.join "," (Pathlib.str <$> entries);
|}.

Definition toy_fs : gmap Path string :=
  list_to_map
    [ (Pathlib.of_name "ENDF-B-VII.1-neutron-293.6K.tar.gz", "tampered");
      (Pathlib.of_name "ENDF-B-VII.1-tsl.tar.gz", "tsl");
      (Pathlib.of_name "ENDF-B-VII.1-photoat.zip", "photoat");
      (Pathlib.of_name "ENDF-B-VII.1-atomic_relax.zip", "relax");
      (ace_files_dir </> "U235.ace", "U235");
      (ace_files_dir </> "bebeo.acer", "be 8016 o 8016");
      (ace_files_dir </> "obeo.acer", "4009 o 4009");
      (endf_files_dir </> "photoat" </> "photoat-001_H_000.endf", "H");
      (endf_files_dir </> "photoat" </> "photoat-002_He_000.endf", "He");
      (endf_files_dir </> "atomic_relax" </> "atom-001_H_000.endf", "H relax") ].

(** A table on which the membership test of the verification stage
    succeeds: ['checksums'] and ['compressed_files'] are keys of
    [release_details[release]], and the files named by the keys of their
    values are on disk. *)
Definition keyed_details : Details :=
  {| base_url := ""; compressed_files := []; checksums := None;
     file_type := "ace"; files := [];
     compressed_file_size := 0; uncompressed_file_size := 0 |}.
Definition keyed_table : Dict (Dict Details) :=
  [ ("b7.1", [ ("compressed_files", keyed_details);
               ("checksums", keyed_details) ]) ].
Definition keyed_fs : gmap Path string :=
  list_to_map ((λ key, (Pathlib.of_name key, "")) <$> details_keys keyed_details).

Definition toy_args (particles : list string) (download_flag : bool) : Args :=
  mkArgs (Pathlib.of_name "nndc-b7.1-hdf5") download_flag true "earliest"
         particles.

(** ** Further vocabulary

    Projections and invariants for the stages taken one by one. *)

Section Stage_vocabulary.
Context `{C : Collaborators}.
Implicit Types (rd : Dict (Dict Details)) (args : Args) (t : list event).

(** The transfers started by a trace, in order, and the transfers the
    download stage is to make: for each selected particle, in the order of
    selection, the base URL followed by each archive name. *)
Definition download_of (e : event) : option string :=
  match e with Download url => Some url | _ => None end.
Definition downloads t : list string := omap download_of t.
Definition download_plan rd args : list string :=
  concat ((λ particle,
             match dict_get rd release ≫= λ rel, dict_get rel particle with
             | Some d => (λ f, base_url d +:+ f) <$> compressed_files d
             | None => []
             end) <$> args_particles args).



(** A step that leaves the file system and the library alone. *)
Definition reads_only (st : state) t (st' : state) : Prop :=
  fs st' = fs st ∧ library st' = library st.

(** A step that removes no file, keeps the length of every file, and
    changes the text of none but the two S(a,b) tables. *)
Definition keeps_lengths (st : state) t (st' : state) : Prop :=
  ∀ p text, fs st !! p = Some text →
    ∃ text', fs st' !! p = Some text' ∧
             String.length text' = String.length text ∧
             (p ≠ ace_files_dir </> "bebeo.acer" →
              p ≠ ace_files_dir </> "obeo.acer" → text' = text).

(** The bytes last exported to [p] by a trace, if any. *)
Definition written_by (e : event) (p : Path) : option string :=
  match e with
  | ExportToHdf5 data q _ libver =>
      if decide (q = p) then Some (hdf5_bytes data libver) else None
  | _ => None
  end.
Fixpoint last_export t (p : Path) : option string :=
  match t with
  | [] => None
  | e :: t' =>
      match last_export t' p with
      | Some bytes => Some bytes
      | None => written_by e p
      end
  end.

(** A step after which every path holds the bytes last exported to it, and
    what it held before if nothing was exported to it. *)
Definition exports_win (st : state) t (st' : state) : Prop :=
  ∀ p, fs st' !! p = match last_export t p with
                     | Some bytes => Some bytes
                     | None => fs st !! p
                     end.



End Stage_vocabulary.

(** A table with the neutron entry only, and an entry with a file type the
    extraction stage has no branch for. *)
Definition neutron_only_table : Dict (Dict Details) :=
  [ ("b7.1", [ ("neutron", keyed_details) ]) ].
Definition hdf5_details : Details :=
  {| base_url := ""; compressed_files := ["ENDF-B-VII.1-tsl.tar.gz"];
     checksums := None; file_type := "hdf5"; files := [];
     compressed_file_size := 0; uncompressed_file_size := 0 |}.

(** A file system holding no file at all. *)
Definition empty_fs : gmap Path string := ∅.


(** * Properties *)

(** ** Strings *)

Module StrFacts.
Import Str.

Lemma app_nil_l (t : string) : "" +:+ t = t.
Proof. reflexivity. Qed.

Lemma app_cons (c : Ascii.ascii) (s t : string) :
  String c s +:+ t = String c (s +:+ t).
Proof. reflexivity. Qed.

Ltac str_simpl := rewrite ?app_cons, ?app_nil_l; simpl.

Lemma app_nil_r (s : string) : s +:+ "" = s.
Proof. induction s as [|c s IH]; str_simpl; [done | by rewrite IH]. Qed.

Lemma app_assoc (a b c : string) : (a +:+ b) +:+ c = a +:+ b +:+ c.
Proof. induction a as [|x a IH]; str_simpl; [done | by rewrite IH]. Qed.












End StrFacts.

(** ** Paths *)

Module PathFacts.
Import Pathlib.

#[global] Instance le_refl : Reflexive le.
Proof.
  intros p. unfold le. induction p as [|a p IH]; simpl; [done|].
  by rewrite decide_True.
Qed.

#[global] Instance le_trans : Transitive le.
Proof.
  unfold le. intros p. induction p as [|a p IH]; intros q r; simpl; [done|].
  destruct q as [|b q]; simpl; [done|]. destruct r as [|c r]; simpl; [done|].
  destruct (decide (a = b)) as [->|Hab].
  - destruct (decide (b = c)) as [->|Hbc]; [apply IH | done].
  - destruct (decide (b = c)) as [->|Hbc].
    + by rewrite decide_False.
    + intros H1 H2. destruct (decide (a = c)) as [->|Hac].
      * destruct Hab. by apply (anti_symm String.le); unfold String.le.
      * change (String.le a c). by trans b.
Qed.

#[global] Instance le_total : Total le.
Proof.
  unfold le. intros p. induction p as [|a p IH]; intros q; simpl; [by left|].
  destruct q as [|b q]; simpl; [by right|].
  destruct (decide (a = b)) as [->|Hab].
  - rewrite decide_True by done. apply IH.
  - rewrite decide_False by done. apply (total String.le).
Qed.

#[global] Instance le_antisym : AntiSymm (=) le.
Proof.
  unfold le. intros p. induction p as [|a p IH]; intros q; simpl.
  - by destruct q.
  - destruct q as [|b q]; simpl; [done|].
    destruct (decide (a = b)) as [->|Hab].
    + rewrite decide_True by done. intros ??. f_equal. by apply IH.
    + rewrite decide_False by done. intros H1 H2. destruct Hab.
      by apply (anti_symm String.le); unfold String.le.
Qed.


Lemma sorted_Permutation (paths : list Path) : sorted paths ≡ₚ paths.
Proof. apply merge_sort_Permutation. Qed.


Lemma length_sorted (paths : list Path) : length (sorted paths) = length paths.
Proof. by rewrite sorted_Permutation. Qed.


Lemma under_div (p : Path) (s : string) : under p (p </> s).
Proof. by apply prefix_app_r. Qed.

End PathFacts.

(** ** Runs of computations *)

Section Runs.
Context `{C : Collaborators}.

Lemma run_bind {A B} (m : M A) (k : A → M B) (st : state) :
  (m ≫= k) st =
  match res (m st) with
  | Done a => mkRun (res (k a (final (m st)))) (final (k a (final (m st))))
                    (trace (m st) ++ trace (k a (final (m st))))
  | Raised e => mkRun (Raised e) (final (m st)) (trace (m st))
  end.
Proof.
  unfold mbind, M_bind, bind. destruct (m st) as [[a|e] st' t]; simpl; [|done].
  by destruct (k a st').
Qed.


Lemma run_bind_raised {A B} (m : M A) (k : A → M B) (st : state) (e : exn) :
  res (m st) = Raised e →
  (m ≫= k) st = mkRun (Raised e) (final (m st)) (trace (m st)).
Proof. intros H. by rewrite run_bind, H. Qed.

Lemma run_bind_eq {A B} (m : M A) (k : A → M B) (st st' : state) (a : A)
    (t : list event) :
  m st = mkRun (Done a) st' t →
  (m ≫= k) st = mkRun (res (k a st')) (final (k a st')) (t ++ trace (k a st')).
Proof. intros H. by rewrite run_bind, H. Qed.

Lemma run_getitem_bind {V B} (d : Dict V) (key : string) (k : V → M B)
    (st : state) :
  (getitem d key ≫= k) st =
  match dict_get d key with
  | Some v => k v st
  | None => mkRun (Raised (KeyError key)) st []
  end.
Proof.
  unfold getitem. destruct (dict_get d key); [|done].
  rewrite run_bind. simpl. by destruct (k v st).
Qed.


Lemma run_for_each_cons {A} (x : A) (xs : list A) (body : A → M unit) :
  for_each (x :: xs) body = (body x;; for_each xs body).
Proof. reflexivity. Qed.

Section Compositional.
Context (Q : state → list event → state → Prop) `{!Compositional Q}.

Lemma sat_ret {A} (a : A) : satisfies Q (mret a : M A).
Proof. intros st. apply comp_nil. Qed.

Lemma sat_raise {A} (e : exn) : satisfies Q (raise e : M A).
Proof. intros st. apply comp_nil. Qed.

Lemma sat_get : satisfies Q get.
Proof. intros st. apply comp_nil. Qed.

Lemma sat_emit (e : event) : (∀ st, Q st [e] st) → satisfies Q (emit e).
Proof. intros He st. apply He. Qed.

Lemma sat_modify (g : state → state) :
  (∀ st, Q st [] (g st)) → satisfies Q (modify g).
Proof. intros Hg st. apply Hg. Qed.

Lemma sat_bind {A B} (m : M A) (k : A → M B) :
  satisfies Q m → (∀ a, satisfies Q (k a)) → satisfies Q (m ≫= k).
Proof.
  intros Hm Hk st. rewrite run_bind. specialize (Hm st).
  destruct (res (m st)) as [a|e]; simpl; [|done].
  eapply comp_app; [done | apply Hk].
Qed.

Lemma sat_for_each {A} (xs : list A) (body : A → M unit) :
  (∀ x, x ∈ xs → satisfies Q (body x)) → satisfies Q (for_each xs body).
Proof.
  induction xs as [|x xs IH]; intros Hbody.
  - apply (sat_ret ()).
  - rewrite run_for_each_cons. apply sat_bind.
    + apply Hbody. by left.
    + intros _. apply IH. intros y Hy. apply Hbody. by right.
Qed.

Lemma sat_when (c : bool) (body : M unit) :
  (c = true → satisfies Q body) → satisfies Q (when c body).
Proof. destruct c; simpl; intros H; [by apply H | apply (sat_ret ())]. Qed.

Lemma sat_getitem {V} (d : Dict V) (k : string) : satisfies Q (getitem d k).
Proof.
  unfold getitem. destruct (dict_get d k); [apply sat_ret | apply sat_raise].
Qed.

Lemma sat_read_var {A} (name : string) (proj : state → option A) :
  satisfies Q (read_var name proj).
Proof.
  unfold read_var. apply sat_bind; [apply sat_get|].
  intros st. destruct (proj st); [apply sat_ret | apply sat_raise].
Qed.

Lemma sat_file_sizes (rd : Dict (Dict Details)) (ps : list string) (acc : Z * Z) :
  satisfies Q (file_sizes rd ps acc).
Proof.
  revert acc. induction ps as [|p ps IH]; intros acc; simpl.
  - apply sat_ret.
  - apply sat_bind; [apply sat_getitem|]. intros rel.
    apply sat_bind; [apply sat_getitem|]. intros d. apply IH.
Qed.

End Compositional.

End Runs.

(** ** Events of a run *)

Ltac run_simpl :=
  repeat (progress (
    unfold mbind, M_bind, bind, mret, M_ret, ret, raise, emit, get, modify,
      when, print, read_file, write_file, set_fs, set_library, set_f,
      set_checksum, set_downloadsum, set_extraction_dir, getitem, read_var;
    simpl)).

Section Events.
Context `{C : Collaborators}.

#[global] Instance Forall_compositional (P : event → Prop) :
  Compositional (λ _ t _, Forall P t).
Proof. split; [by constructor | intros; by apply Forall_app]. Qed.

Lemma emits_only_emit (P : event → Prop) (e : event) :
  P e → emits_only P (emit e).
Proof. intros He st. simpl. by repeat constructor. Qed.

Lemma emits_only_modify (P : event → Prop) (g : state → state) :
  emits_only P (modify g).
Proof. intros st. constructor. Qed.

End Events.

Ltac emits_step :=
  first
    [ apply sat_ret; tc_solve | apply sat_raise; tc_solve
    | apply sat_get; tc_solve | apply sat_getitem; tc_solve
    | apply sat_read_var; tc_solve | apply sat_file_sizes; tc_solve
    | apply emits_only_modify
    | apply emits_only_emit
    | apply sat_bind; [tc_solve| |intros ?]
    | apply sat_for_each; [tc_solve|intros ? ?]
    | apply sat_when; [tc_solve|intros ?]
    | match goal with
      | |- satisfies _ (match ?x with _ => _ end) => destruct x
      end ].

Ltac emits := unfold emits_only; repeat emits_step.

(** A stage lemma, its side conditions on event kinds closed by computation. *)
Ltac stage lem := apply lem; intros; simpl; tauto.

Section Stages.
Context `{C : Collaborators}.
Implicit Types (P : event → Prop) (rd : Dict (Dict Details)) (args : Args).

Lemma download_files_emits P rd args warning :
  (∀ s, P (Print s)) → (∀ u, P (Download u)) →
  emits_only P (download_files rd args warning).
Proof. intros ??. unfold download_files, download_url. emits; auto. Qed.

Lemma extract_files_emits P rd args :
  (∀ s, P (Print s)) → (∀ f d, P (ZipExtractAll f d)) →
  (∀ f m d, P (TarExtractAll f m d)) →
  emits_only P (extract_files rd args).
Proof.
  intros ???.
  unfold extract_files, extract_particle, extract_file, open_archive,
    extractall.
  emits; auto.
Qed.

Lemma fix_zaid_assignments_emits P args :
  (∀ s, P (Print s)) → (∀ p m, P (Open p m)) →
  emits_only P (fix_zaid_assignments args).
Proof.
  intros ??. unfold fix_zaid_assignments, fix_zaid, read_file, write_file.
  emits; auto.
Qed.

Lemma generate_hdf5_library_emits P rd args :
  (∀ s, P (Print s)) → (∀ p, P (Mkdir p)) → (∀ c p, P (FromAce c p)) →
  (∀ p a, P (FromEndf p a)) → (∀ d p m v, P (ExportToHdf5 d p m v)) →
  (∀ p, P (RegisterFile p)) →
  emits_only P (generate_hdf5_library rd args).
Proof.
  intros ??????.
  unfold generate_hdf5_library, make_destinations, convert_particle,
    sorted_files, convert_ace, convert_endf, from_ace, from_endf,
    export_to_hdf5, register_file.
  emits; auto.
Qed.

Lemma write_cross_sections_xml_emits P args :
  (∀ s, P (Print s)) → (∀ p l, P (ExportToXml p l)) →
  emits_only P (write_cross_sections_xml args).
Proof.
  intros ??. unfold write_cross_sections_xml, export_to_xml. emits; auto.
Qed.

End Stages.

(** ** The verification stage and the stage guards *)

Section Guards.
Context `{C : Collaborators}.
Implicit Types (P : event → Prop) (rd : Dict (Dict Details)) (args : Args).

Lemma run_bind_skip {A B} (m : M A) (k : A → M B) (st : state) (a : A) :
  m st = mkRun (Done a) st [] → (m ≫= k) st = k a st.
Proof.
  intros Hm. unfold mbind, M_bind, bind. rewrite Hm. by destruct (k a st).
Qed.

Lemma for_each_skip {A} (xs : list A) (body : A → M unit) (st : state) :
  (∀ x, x ∈ xs → body x st = mkRun (Done ()) st []) →
  for_each xs body st = mkRun (Done ()) st [].
Proof.
  induction xs as [|x xs IH]; intros Hbody; [done|].
  rewrite run_for_each_cons, (run_bind_skip _ _ _ ()).
  - apply IH. intros y Hy. apply Hbody. by right.
  - apply Hbody. by left.
Qed.

Lemma emits_only_skip P {A} (m : M A) (a : A) :
  (∀ st, m st = mkRun (Done a) st []) → emits_only P m.
Proof. intros Hm st. rewrite Hm. constructor. Qed.


Lemma verify_md5_checksums_off rd args st :
  args_download args = false →
  verify_md5_checksums rd args st = mkRun (Done ()) st [].
Proof. intros Hoff. unfold verify_md5_checksums. by rewrite Hoff. Qed.

Lemma download_files_off rd args warning st :
  args_download args = false →
  download_files rd args warning st = mkRun (Done ()) st [].
Proof. intros Hoff. unfold download_files. by rewrite Hoff. Qed.

(** On the table of the script the membership test fails for every
    particle: the keys of [release_details[release]] are the particle
    names.  The stage prints its banner and does nothing else. *)
Lemma verify_md5_checksums_table args st :
  verify_md5_checksums release_details args st =
  mkRun (Done ()) st
        (if args_download args then [Print "Verifying MD5 checksums..."]
         else []).
Proof.
  unfold verify_md5_checksums. destruct (args_download args); [|done].
  unfold when, print. unfold mbind, M_bind, bind. simpl.
  rewrite for_each_skip; [done|]. intros particle _. reflexivity.
Qed.

Lemma file_sizes_table st :
  file_sizes release_details ["neutron"; "photon"] (0, 0)%Z st =
  mkRun (Done (506, 1245)%Z) st [].
Proof. reflexivity. Qed.

Lemma fix_zaid_assignments_off args st :
  "neutron" ∉ args_particles args →
  fix_zaid_assignments args st = mkRun (Done ()) st [].
Proof.
  intros Hno. unfold fix_zaid_assignments.
  by rewrite bool_decide_eq_false_2.
Qed.

End Guards.

(** * The claims *)

Section Download_guard.
Context `{C : Collaborators}.

(** C9.  Checksum verification runs only under the download flag.  On any
    release table and from any state, a run with downloading disabled makes
    the verification stage a no-op (no file opened, no variable touched),
    emits no digest event anywhere in the script, and, on the table of the
    script, is exactly the run of the stages from extraction onwards. *)
Theorem no_digest_without_download
    (rd : Dict (Dict Details)) (args : Args) (st : state) :
  args_download args = false →
  verify_md5_checksums rd args st = mkRun (Done ()) st [] ∧
  Forall (λ e, ¬ is_md5 e) (trace (script rd args st)) ∧
  main args st =
    (extract_files release_details args;;
     fix_zaid_assignments args;;
     generate_hdf5_library release_details args;;
     write_cross_sections_xml args) st.
Proof.
  intros Hoff. split; [by apply verify_md5_checksums_off|]. split.
  - revert st. change (emits_only (λ e, ¬ is_md5 e) (script rd args)).
    unfold script.
    apply sat_bind; [tc_solve | apply sat_file_sizes; tc_solve | intros sizes].
    apply sat_bind; [tc_solve | stage download_files_emits | intros _].
    apply sat_bind; [tc_solve | | intros _].
    { apply (emits_only_skip _ _ ()). intros st.
      by apply verify_md5_checksums_off. }
    apply sat_bind; [tc_solve | stage extract_files_emits | intros _].
    apply sat_bind;
      [tc_solve | stage fix_zaid_assignments_emits | intros _].
    apply sat_bind;
      [tc_solve | stage generate_hdf5_library_emits | intros _].
    stage write_cross_sections_xml_emits.
  - unfold main, script.
    rewrite (run_bind_skip _ _ _ _ (file_sizes_table st)).
    rewrite (run_bind_skip _ _ _ ()) by by apply download_files_off.
    by rewrite (run_bind_skip _ _ _ ()) by by apply verify_md5_checksums_off.
Qed.

End Download_guard.

Lemma no_digest_without_download_witness :
  args_download (toy_args ["neutron"; "photon"] false) = false ∧
  verify_md5_checksums (C := toy) release_details
    (toy_args ["neutron"; "photon"] false) (initial toy_fs) =
  mkRun (Done ()) (initial toy_fs) [].
Proof.
  split; [reflexivity|].
  apply (no_digest_without_download (C := toy) release_details
           (toy_args ["neutron"; "photon"] false) (initial toy_fs)).
  reflexivity.
Defined.

Section Patcher_guard.
Context `{C : Collaborators}.

(** C10.  The patcher runs only when ['neutron'] is selected.  For a run
    whose particle selection excludes it, the stage is a no-op: it leaves
    the state, hence every file, as it found it and opens nothing; and the
    script as a whole then opens no file itself, in particular neither
    [bebeo.acer] nor [obeo.acer]. *)
Theorem patcher_skipped_without_neutron (args : Args) (st : state) :
  "neutron" ∉ args_particles args →
  fix_zaid_assignments args st = mkRun (Done ()) st [] ∧
  Forall (λ e, ¬ is_open e) (trace (main args st)).
Proof.
  intros Hno. split; [by apply fix_zaid_assignments_off|].
  revert st. change (emits_only (λ e, ¬ is_open e) (main args)).
  unfold main, script.
  apply sat_bind; [tc_solve | apply sat_file_sizes; tc_solve | intros sizes].
  apply sat_bind; [tc_solve | stage download_files_emits | intros _].
  apply sat_bind; [tc_solve | | intros _].
  { intros st. rewrite verify_md5_checksums_table. simpl.
    destruct (args_download args); repeat constructor. simpl. tauto. }
  apply sat_bind; [tc_solve | stage extract_files_emits | intros _].
  apply sat_bind; [tc_solve | | intros _].
  { apply (emits_only_skip _ _ ()). intros st.
    by apply fix_zaid_assignments_off. }
  apply sat_bind;
    [tc_solve | stage generate_hdf5_library_emits | intros _].
  stage write_cross_sections_xml_emits.
Qed.

End Patcher_guard.

Lemma patcher_skipped_without_neutron_witness :
  ("neutron" ∉ args_particles (toy_args ["photon"] true)) ∧
  fix_zaid_assignments (C := toy) (toy_args ["photon"] true) (initial toy_fs) =
  mkRun (Done ()) (initial toy_fs) [].
Proof.
  assert (Hno : "neutron" ∉ args_particles (toy_args ["photon"] true)).
  { simpl. rewrite list_elem_of_singleton. discriminate. }
  split; [exact Hno|].
  apply (patcher_skipped_without_neutron (C := toy)
           (toy_args ["photon"] true) (initial toy_fs) Hno).
Defined.

(** C1 (the code departs from it).  The archive
    [ENDF-B-VII.1-neutron-293.6K.tar.gz] has a declared checksum in the
    release table, and in this run the file on disk has another digest.
    The verification stage computes no digest and raises nothing (see
    [verify_md5_checksums_table]: the membership test looks for
    ['checksums'] among the particle names), the archive is handed to
    [tarfile] and extracted, and the run completes. *)
Theorem mismatched_archive_is_extracted :
  let args := toy_args ["neutron"] true in
  let archive := "ENDF-B-VII.1-neutron-293.6K.tar.gz" in
  let r := main (C := toy) args (initial toy_fs) in
  (∃ rel d,
      dict_get release_details release = Some rel ∧
      dict_get rel "neutron" = Some d ∧
      compressed_files d !! 0 = Some archive ∧
      checksums d ≫= (.!! 0) = Some "9729a17eb62b75f285d8a7628ace1449") ∧
  (∃ content,
      toy_fs !! Pathlib.of_name archive = Some content ∧
      md5_hexdigest (Collaborators := toy) content
        ≠ "9729a17eb62b75f285d8a7628ace1449") ∧
  res r = Done () ∧
  TarExtractAll archive "r" ace_files_dir ∈ trace r ∧
  Forall (λ e, ¬ is_md5 e) (trace r).
Proof.
  intros args archive r. split; [|split; [|split; [|split]]].
  - eexists _, _. repeat split; reflexivity.
  - exists "tampered". split; [reflexivity | discriminate].
  - reflexivity.
  - assert (Htr : trace r !! 5 =
                  Some (TarExtractAll archive "r" ace_files_dir))
      by reflexivity.
    eapply list_elem_of_lookup_2, Htr.
  - apply Forall_forall. intros e He.
    assert (Hall : forallb (λ e, match e with Md5 _ _ => false | _ => true end)
                     (trace r) = true) by reflexivity.
    rewrite forallb_forall in Hall. apply list_elem_of_In, Hall in He.
    destruct e; simpl; try tauto; discriminate.
Qed.

Section Patcher.
Context `{C : Collaborators}.
Import StrFacts.




End Patcher.



(** ** Loops against a plan *)

Section Loops.
Context `{C : Collaborators}.

(** A loop whose iterations each contribute, to some projection of the
    trace, the items planned for their element: the loop yields a prefix
    of the whole plan, and all of it when it runs to completion. *)
Lemma for_each_plan {A B} (proj : list event → list B) (I : state → Prop)
    (plan : A → list B) (xs : list A) (body : A → M unit) :
  proj [] = [] →
  (∀ t1 t2, proj (t1 ++ t2) = proj t1 ++ proj t2) →
  (∀ x st, x ∈ xs → I st →
     I (final (body x st)) ∧
     proj (trace (body x st)) `prefix_of` plan x ∧
     (res (body x st) = Done () → proj (trace (body x st)) = plan x)) →
  ∀ st, I st →
    I (final (for_each xs body st)) ∧
    proj (trace (for_each xs body st)) `prefix_of` concat (plan <$> xs) ∧
    (res (for_each xs body st) = Done () →
     proj (trace (for_each xs body st)) = concat (plan <$> xs)).
Proof.
  intros Hnil Happ. induction xs as [|x xs IH]; intros Hbody st HI.
  - simpl. rewrite Hnil. by repeat split.
  - rewrite run_for_each_cons, run_bind.
    destruct (Hbody x st) as (HI' & Hpre & Hdone); [by left | done |].
    destruct (res (body x st)) as [[]|e] eqn:Hres; simpl.
    + destruct (IH (λ y st' Hy, Hbody y st' (list_elem_of_further _ _ _ Hy))
                  (final (body x st)) HI') as (HI'' & Hpre' & Hdone').
      rewrite Happ, Hdone by done. repeat split; [done | |].
      * by apply prefix_app.
      * intros Hr. by rewrite Hdone'.
    + repeat split; [done | | done].
      etrans; [done|]. by apply prefix_app_r.
Qed.

(** A loop whose iterations all succeed under an invariant succeeds. *)
Lemma for_each_done {A} (I : state → Prop) (xs : list A) (body : A → M unit) :
  (∀ x st, x ∈ xs → I st →
     res (body x st) = Done () ∧ I (final (body x st))) →
  ∀ st, I st →
    res (for_each xs body st) = Done () ∧ I (final (for_each xs body st)).
Proof.
  induction xs as [|x xs IH]; intros Hbody st HI; [done|].
  rewrite run_for_each_cons, run_bind.
  destruct (Hbody x st) as [Hres HI']; [by left | done |].
  rewrite Hres. simpl. apply IH; [|done].
  intros y st' Hy. apply Hbody. by right.
Qed.

End Loops.

Section Extraction.
Context `{C : Collaborators}.

Lemma extractions_app (t1 t2 : list event) :
  extractions (t1 ++ t2) = extractions t1 ++ extractions t2.
Proof. apply omap_app. Qed.


(** One archive, whatever happens: the only extraction it can cause is the
    one its name selects, into the directory assigned; it leaves that
    assignment alone. *)
Lemma extract_file_plan (f : string) (dir : Path) (st : state) :
  var_extraction_dir st = Some dir →
  var_extraction_dir (final (extract_file f st)) = Some dir ∧
  extractions (trace (extract_file f st)) `prefix_of` [route dir f] ∧
  (res (extract_file f st) = Done () →
   extractions (trace (extract_file f st)) = [route dir f]).
Proof.
  intros Hdir. unfold extract_file, route, open_archive, extractall.
  destruct (Str.endswith f ".zip"); run_simpl;
    (destruct (fs st !! Pathlib.of_name f) as [content|]; simpl;
     [|by repeat split; [|apply prefix_nil|]]);
    [destruct (zip_members content) as [ms|]
    |destruct (tar_members content) as [ms|]]; simpl;
    rewrite ?Hdir; simpl; by repeat split; try apply prefix_nil.
Qed.

End Extraction.

Section Extraction_stage.
Context `{C : Collaborators}.

Lemma concat_singletons {A B} (g : A → B) (xs : list A) :
  concat ((λ x, [g x]) <$> xs) = g <$> xs.
Proof. induction xs as [|x xs IH]; csimpl; [done | by rewrite IH]. Qed.

Lemma extract_archives_plan (dir : Path) (archives : list string) (st : state) :
  var_extraction_dir st = Some dir →
  let r := for_each archives (λ f, set_f f;; extract_file f) st in
  var_extraction_dir (final r) = Some dir ∧
  extractions (trace r) `prefix_of` (route dir <$> archives) ∧
  (res r = Done () → extractions (trace r) = route dir <$> archives).
Proof.
  intros Hdir. simpl. rewrite <- concat_singletons.
  apply (for_each_plan extractions (λ st, var_extraction_dir st = Some dir)
           (λ f, [route dir f])); [done | apply extractions_app | | done].
  intros f st' _ Hdir'.
  erewrite run_bind_eq by reflexivity. simpl.
  by apply extract_file_plan.
Qed.


(** The entries of the table of the script. *)
Lemma release_details_particle (particle : string) (d : Details) :
  dict_get release_details release ≫= (λ rel, dict_get rel particle) = Some d →
  (particle = "neutron" ∨ particle = "photon") ∧
  (file_type d = "ace" ∨ file_type d = "endf").
Proof.
  simpl. repeat case_decide; intros ?; simplify_eq; simpl; auto.
Qed.


End Extraction_stage.

(** ** Conversion *)

Section Conversion.
Context `{C : Collaborators}.
Implicit Types (rd : Dict (Dict Details)) (args : Args).





End Conversion.

(** ** The manifest *)

Section Manifest.
Context `{C : Collaborators}.
Implicit Types (rd : Dict (Dict Details)) (args : Args) (t : list event).

Lemma paired_app t1 t2 : paired t1 → paired t2 → paired (t1 ++ t2).
Proof.
  induction 1; intros Ht2; simpl; [done | |].
  - apply paired_other; auto.
  - apply paired_export; auto.
Qed.

Lemma omap_step {A B} (g : A → option B) (x : A) (xs : list A) :
  omap g (x :: xs) =
  match g x with Some y => y :: omap g xs | None => omap g xs end.
Proof. reflexivity. Qed.



Lemma registrations_app t1 t2 :
  registrations (t1 ++ t2) = registrations t1 ++ registrations t2.
Proof. apply omap_app. Qed.


Lemma paired_plain t :
  Forall (λ e, export_of e = None ∧ registration_of e = None) t → paired t.
Proof.
  induction 1 as [|e t (He & Hr) _ IH]; [constructor|].
  by apply paired_other.
Qed.

Lemma paired_quiet t : Forall quiet t → paired t.
Proof.
  intros Hq. apply paired_plain. eapply Forall_impl; [done|].
  by intros e (? & ? & _).
Qed.

#[global] Instance paired_compositional : Compositional (λ _ t _, paired t).
Proof. split; [constructor | intros; by apply paired_app]. Qed.


Lemma quiet_registrations t : Forall quiet t → registrations t = [].
Proof.
  unfold registrations. induction 1 as [|e t (_ & He & _) _ IH]; [done|].
  by rewrite omap_step, He.
Qed.



#[global] Instance tracks_library_compositional : Compositional tracks_library.
Proof.
  split.
  - intros st. split; [constructor | by rewrite app_nil_r].
  - intros st1 t1 st2 t2 st3 [Hp1 Hl1] [Hp2 Hl2]. split.
    + by apply paired_app.
    + by rewrite registrations_app, Hl2, Hl1, app_assoc.
Qed.

Lemma tracks_library_quiet {A} (m : M A) :
  emits_only quiet m → (∀ st, library (final (m st)) = library st) →
  satisfies tracks_library m.
Proof.
  intros Hq Hl st. split.
  - apply paired_quiet, Hq.
  - by rewrite Hl, quiet_registrations, app_nil_r by apply Hq.
Qed.




End Manifest.

Section Manifest_script.
Context `{C : Collaborators}.
Implicit Types (rd : Dict (Dict Details)) (args : Args) (t : list event).

#[global] Instance silent_compositional : Compositional silent.
Proof.
  split.
  - by split.
  - intros st1 t1 st2 t2 st3 [Hq1 Hl1] [Hq2 Hl2]. split.
    + by apply Forall_app.
    + by rewrite Hl2.
Qed.














End Manifest_script.

(** ** Photon pairing *)

Section Photon.
Context `{C : Collaborators}.
Implicit Types (args : Args) (t : list event).











End Photon.

Section Photon_claims.
Context `{C : Collaborators}.
Implicit Types (args : Args).




End Photon_claims.






(** ** Two runs of the conversion *)

Section Reproducible.
Context `{C : Collaborators}.
Implicit Types (args : Args) (m : gmap Path string).

Lemma off_destination_refl args m : off_destination args m m.
Proof. by intros p _. Qed.

Lemma off_destination_trans args m1 m2 m3 :
  off_destination args m1 m2 → off_destination args m2 m3 →
  off_destination args m1 m3.
Proof. intros H12 H23 p Hp. by rewrite H12, H23. Qed.












End Reproducible.

Section Reproducible_stage.
Context `{C : Collaborators}.
Implicit Types (args : Args) (m : gmap Path string).








(** The conversion stage writes below the destination only. *)
#[global] Instance off_destination_compositional args :
  Compositional (λ st _ st', off_destination args (fs st) (fs st')).
Proof.
  split; [intros; apply off_destination_refl|].
  intros st1 _ st2 _ st3. apply off_destination_trans.
Qed.



End Reproducible_stage.

(** ** Concrete runs *)






(** A complete run in the small world: both particles, download enabled.
    It completes, exports two artifacts and lists exactly them. *)
Example complete_run :
  let r := main (C := toy) (toy_args ["neutron"; "photon"] true)
             (initial toy_fs) in
  res r = Done () ∧
  exports (trace r)
  = [ ["nndc-b7.1-hdf5"; "neutron"; "U235.h5"];
      ["nndc-b7.1-hdf5"; "photon"; "H.h5"] ] ∧
  manifests (trace r)
  = [ (["nndc-b7.1-hdf5"; "cross_sections.xml"], exports (trace r)) ].
Proof. repeat split. Qed.

(** On a table that has ['checksums'] where the stage looks for it, the
    stage does open files, compute digests and raise on a mismatch when the
    download flag is set, and does nothing without it. *)
Example verification_branch_is_live :
  let on := verify_md5_checksums (C := toy) keyed_table
              (toy_args ["neutron"] true) (initial keyed_fs) in
  let off := verify_md5_checksums (C := toy) keyed_table
               (toy_args ["neutron"] false) (initial keyed_fs) in
  res on = Raised (IOError (checksum_message "uncompressed_file_size")) ∧
  Exists is_md5 (trace on) ∧
  Exists is_open (trace on) ∧
  off = mkRun (Done ()) (initial keyed_fs) [].
Proof.
  split; [reflexivity|]. split; [|split; [|reflexivity]].
  - apply Exists_cons_tl, Exists_cons_tl, Exists_cons_hd. exact I.
  - apply Exists_cons_tl, Exists_cons_hd. exact I.
Qed.

(** * Further properties of the stages *)

(** ** The script as a whole *)

Section Whole_script.
Context `{C : Collaborators}.
Implicit Types (rd : Dict (Dict Details)) (args : Args) (t : list event).





(** X2.  The totals of the warning are summed over both particles whatever the
    selection, before anything else happens: on a table whose release
    lacks the ['neutron'] or the ['photon'] entry the script raises
    [KeyError] for the first one missing, having printed nothing and
    changed nothing, even when downloading is disabled and the missing
    particle is not selected. *)
Theorem sizes_need_both_particles rd args (st : state) (rel : Dict Details) :
  dict_get rd release = Some rel →
  (dict_get rel "neutron" = None →
   script rd args st = mkRun (Raised (KeyError "neutron")) st []) ∧
  (is_Some (dict_get rel "neutron") → dict_get rel "photon" = None →
   script rd args st = mkRun (Raised (KeyError "photon")) st []).
Proof.
  intros Hrel. unfold script. split.
  - intros Hn. rewrite run_bind. simpl.
    by rewrite run_getitem_bind, Hrel, run_getitem_bind, Hn.
  - intros [d Hn] Hp. rewrite run_bind. simpl.
    rewrite run_getitem_bind, Hrel, run_getitem_bind, Hn.
    by rewrite run_getitem_bind, Hrel, run_getitem_bind, Hp.
Qed.

#[global] Instance reads_only_compositional : Compositional reads_only.
Proof.
  split; [done|].
  intros st1 t1 st2 t2 st3 [Hf1 Hl1] [Hf2 Hl2].
  split; [by rewrite Hf2 | by rewrite Hl2].
Qed.

(** X3.  Verification only reads: on any table, with any arguments and whether
    it completes or raises, the stage leaves every file and the library as
    they were. *)
Theorem verification_reads_only rd args (st : state) :
  fs (final (verify_md5_checksums rd args st)) = fs st ∧
  library (final (verify_md5_checksums rd args st)) = library st.
Proof.
  revert st. change (satisfies reads_only (verify_md5_checksums rd args)).
  unfold verify_md5_checksums, read_file, print, set_f, set_checksum,
    set_downloadsum.
  repeat first
    [ apply sat_emit; intros; by split
    | apply sat_modify; intros; by split
    | emits_step ].
Qed.

End Whole_script.

Lemma sizes_need_both_particles_witness :
  script (C := toy) neutron_only_table (toy_args ["neutron"] false)
    (initial toy_fs)
  = mkRun (Raised (KeyError "photon")) (initial toy_fs) [].
Proof.
  destruct (sizes_need_both_particles (C := toy) neutron_only_table
              (toy_args ["neutron"] false) (initial toy_fs)
              [("neutron", keyed_details)] eq_refl) as [_ Hphoton].
  apply Hphoton; [by eexists | reflexivity].
Defined.

(** ** Loops, once more *)

Section More_loops.
Context `{C : Collaborators}.


(** An error of a loop is the error of one of its iterations. *)
Lemma for_each_raised_by {A} (P : A → exn → Prop) (xs : list A)
    (body : A → M unit) :
  (∀ x st e, x ∈ xs → res (body x st) = Raised e → P x e) →
  ∀ st e, res (for_each xs body st) = Raised e → ∃ x, x ∈ xs ∧ P x e.
Proof.
  induction xs as [|x xs IH]; intros Hbody st e Hraised; [done|].
  rewrite run_for_each_cons, run_bind in Hraised.
  destruct (res (body x st)) as [[]|e'] eqn:Hres; simpl in *.
  - destruct (IH (λ y st' e' Hy, Hbody y st' e' (list_elem_of_further _ _ _ Hy))
                _ _ Hraised) as (y & Hy & HP).
    exists y. split; [by right | done].
  - simplify_eq. exists x. split; [by left|].
    eapply Hbody; [by left | done].
Qed.

Lemma elem_of_concat_2 {A} (x : A) (l : list A) (ls : list (list A)) :
  l ∈ ls → x ∈ l → x ∈ concat ls.
Proof.
  induction 1 as [l ls|l l' ls _ IH]; intros Hx; simpl; apply elem_of_app.
  - by left.
  - right. by apply IH.
Qed.

End More_loops.

(** ** Downloading *)

Section Downloading.
Context `{C : Collaborators}.
Implicit Types (rd : Dict (Dict Details)) (args : Args) (t : list event).

Lemma downloads_app t1 t2 : downloads (t1 ++ t2) = downloads t1 ++ downloads t2.
Proof. apply omap_app. Qed.

Lemma download_url_cases (url : string) (st : state) :
  downloads (trace (download_url url st)) = [url] ∧
  (res (download_url url st) = Done () ∨
   res (download_url url st) = Raised (DownloadError url)) ∧
  (is_Some (download url (fs st)) → res (download_url url st) = Done ()).
Proof.
  unfold download_url. run_simpl.
  destruct (download url (fs st)) as [m|]; simpl.
  - split; [done|]. split; [by left | done].
  - split; [done|]. split; [by right | by intros [? ?]].
Qed.

Lemma download_archives_plan (d : Details) (st : state) :
  let r := for_each (compressed_files d)
             (λ f, set_f f;; download_url (base_url d +:+ f)) st in
  downloads (trace r) `prefix_of` ((λ f, base_url d +:+ f) <$> compressed_files d) ∧
  (res r = Done () →
   downloads (trace r) = (λ f, base_url d +:+ f) <$> compressed_files d).
Proof.
  simpl. rewrite <- concat_singletons.
  destruct (for_each_plan downloads (λ _, True)
              (λ f, [base_url d +:+ f]) (compressed_files d)
              (λ f, set_f f;; download_url (base_url d +:+ f))
              eq_refl downloads_app)
    with (st := st) as (_ & Hpre & Hdone); [|done|by split].
  intros f st' _ _. split; [done|].
  erewrite run_bind_eq by reflexivity. simpl.
  destruct (download_url_cases (base_url d +:+ f) (with_f st' f)) as [-> _].
  by split.
Qed.

(** X4.  With downloading enabled the transfers follow the plan: for each
    selected particle, in the order of selection, the base URL followed by
    each archive name, each at most once (there is no retry).  The
    transfers started form a prefix of the plan, and the whole plan when
    the stage completes; the stage can only raise for a particle missing
    from the table or for a transfer of the plan that fails, and it
    completes when every selected particle is in the table and every
    transfer succeeds. *)
Theorem downloads_follow_the_plan rd args (warning : string) (st : state) :
  args_download args = true →
  let r := download_files rd args warning st in
  downloads (trace r) `prefix_of` download_plan rd args ∧
  (res r = Done () → downloads (trace r) = download_plan rd args) ∧
  (∀ e, res r = Raised e →
        (∃ key, e = KeyError key) ∨
        (∃ url, e = DownloadError url ∧ url ∈ download_plan rd args)) ∧
  ((∀ particle, particle ∈ args_particles args →
      is_Some (dict_get rd release ≫= λ rel, dict_get rel particle)) →
   (∀ url m, is_Some (download url m)) →
   res r = Done ()).
Proof.
  intros Hon. simpl. unfold download_files. rewrite Hon. unfold when.
  rewrite !run_bind. simpl. split; [|split; [|split]].
  - destruct (for_each_plan downloads (λ _, True)
                (λ particle,
                   match dict_get rd release ≫= λ rel, dict_get rel particle with
                   | Some d => (λ f, base_url d +:+ f) <$> compressed_files d
                   | None => []
                   end) (args_particles args)
                (λ particle, rel ← getitem rd release;
                             d ← getitem rel particle;
                             for_each (compressed_files d)
                               (λ f, set_f f;; download_url (base_url d +:+ f)))
                eq_refl downloads_app)
      with (st := st) as (_ & Hpre & _); [|done|done].
    intros particle st' _ _. split; [done|].
    rewrite run_getitem_bind.
    destruct (dict_get rd release) as [rel|]; simpl;
      [|split; [apply prefix_nil | done]].
    rewrite run_getitem_bind.
    destruct (dict_get rel particle) as [d|]; simpl;
      [|split; [apply prefix_nil | done]].
    apply download_archives_plan.
  - destruct (for_each_plan downloads (λ _, True)
                (λ particle,
                   match dict_get rd release ≫= λ rel, dict_get rel particle with
                   | Some d => (λ f, base_url d +:+ f) <$> compressed_files d
                   | None => []
                   end) (args_particles args)
                (λ particle, rel ← getitem rd release;
                             d ← getitem rel particle;
                             for_each (compressed_files d)
                               (λ f, set_f f;; download_url (base_url d +:+ f)))
                eq_refl downloads_app)
      with (st := st) as (_ & _ & Hdone); [|done|done].
    intros particle st' _ _. split; [done|].
    rewrite run_getitem_bind.
    destruct (dict_get rd release) as [rel|]; simpl;
      [|split; [apply prefix_nil | done]].
    rewrite run_getitem_bind.
    destruct (dict_get rel particle) as [d|]; simpl;
      [|split; [apply prefix_nil | done]].
    apply download_archives_plan.
  - intros e Hraised.
    apply (for_each_raised_by
             (λ particle e,
                (∃ key, e = KeyError key) ∨
                (∃ url, e = DownloadError url ∧
                   url ∈ match dict_get rd release ≫= λ rel, dict_get rel particle with
                         | Some d => (λ f, base_url d +:+ f) <$> compressed_files d
                         | None => []
                         end))) in Hraised.
    + destruct Hraised as (particle & Hin & [?|(url & -> & Hurl)]); [by left|].
      right. exists url. split; [done|]. unfold download_plan.
      eapply elem_of_concat_2; [|done].
      apply list_elem_of_fmap. by exists particle.
    + intros particle st' e' _. rewrite run_getitem_bind.
      destruct (dict_get rd release) as [rel|]; simpl;
        [|intros ?; simplify_eq; left; by eexists].
      rewrite run_getitem_bind.
      destruct (dict_get rel particle) as [d|]; simpl;
        [|intros ?; simplify_eq; left; by eexists].
      intros Hr.
      apply (for_each_raised_by
               (λ f e, e = DownloadError (base_url d +:+ f))) in Hr.
      * destruct Hr as (f & Hf & ->). right. eexists. split; [done|].
        apply list_elem_of_fmap. by exists f.
      * intros f st'' e'' _. erewrite run_bind_eq by reflexivity. simpl.
        destruct (download_url_cases (base_url d +:+ f) (with_f st'' f))
          as (_ & [Hd|Hd] & _); rewrite Hd; intros ?; by simplify_eq.
  - intros Hknown Hup.
    apply (for_each_done (λ _, True)); [|done].
    intros particle st' Hin _. split; [|done].
    destruct (Hknown particle Hin) as [d Hd].
    rewrite run_getitem_bind.
    destruct (dict_get rd release) as [rel|]; simpl in *; [|done].
    rewrite run_getitem_bind, Hd.
    apply (for_each_done (λ _, True)); [|done].
    intros f st'' _ _. split; [|done].
    erewrite run_bind_eq by reflexivity. simpl.
    by apply download_url_cases.
Qed.

End Downloading.

Lemma downloads_follow_the_plan_witness :
  args_download (toy_args ["photon"; "neutron"] true) = true ∧
  downloads (trace (download_files (C := toy) release_details
                      (toy_args ["photon"; "neutron"] true) "" (initial toy_fs)))
  = [ "http://www.nndc.bnl.gov/endf/b7.1/zips/ENDF-B-VII.1-photoat.zip";
      "http://www.nndc.bnl.gov/endf/b7.1/zips/ENDF-B-VII.1-atomic_relax.zip";
      "http://www.nndc.bnl.gov/endf/b7.1/aceFiles/ENDF-B-VII.1-neutron-293.6K.tar.gz";
      "http://www.nndc.bnl.gov/endf/b7.1/aceFiles/ENDF-B-VII.1-tsl.tar.gz" ].
Proof.
  destruct (downloads_follow_the_plan (C := toy) release_details
              (toy_args ["photon"; "neutron"] true) "" (initial toy_fs)
              eq_refl) as (_ & Hdone & _).
  split; [reflexivity|]. exact (Hdone eq_refl).
Defined.

(** ** Extraction, edge cases *)

Section Extraction_edges.
Context `{C : Collaborators}.
Implicit Types (rd : Dict (Dict Details)) (args : Args) (t : list event).
Import StrFacts.




Lemma extract_file_missing (f : string) (st : state) :
  fs st !! Pathlib.of_name f = None →
  extract_file f st =
  mkRun (Raised (FileNotFoundError (Pathlib.of_name f))) st [].
Proof.
  intros Hfile. unfold extract_file, open_archive.
  destruct (Str.endswith f ".zip"); run_simpl; by rewrite Hfile.
Qed.

(** X6.  With downloading disabled and extraction enabled, a first archive that
    is not on disk stops the run at once: the script raises
    [FileNotFoundError] for that archive having printed nothing and changed
    no file; nothing is patched, converted or written. *)
Theorem missing_archive_stops_the_run args (st : state)
    (particle f : string) (rest archives : list string) (d : Details) :
  args_download args = false →
  args_extract args = true →
  args_particles args = particle :: rest →
  dict_get release_details release ≫= (λ rel, dict_get rel particle) = Some d →
  compressed_files d = f :: archives →
  fs st !! Pathlib.of_name f = None →
  main args st =
  mkRun (Raised (FileNotFoundError (Pathlib.of_name f)))
        (with_f (with_extraction_dir st (target_dir d)) f) [].
Proof.
  intros Hoff Hon Hparticles Hd Hfiles Hmissing.
  unfold main, script.
  rewrite (run_bind_skip _ _ _ _ (file_sizes_table st)).
  rewrite (run_bind_skip _ _ _ ()) by by apply download_files_off.
  rewrite (run_bind_skip _ _ _ ()) by by apply verify_md5_checksums_off.
  rewrite run_bind.
  unfold extract_files. rewrite Hon, Hparticles. unfold when.
  rewrite run_for_each_cons.
  assert (Hbody :
    (rel ← getitem release_details release;
     d' ← getitem rel particle; extract_particle d') st =
    mkRun (Raised (FileNotFoundError (Pathlib.of_name f)))
          (with_f (with_extraction_dir st (target_dir d)) f) []).
  { destruct (release_details_particle particle d Hd) as [_ Hty].
    rewrite run_getitem_bind.
    destruct (dict_get release_details release) as [rel|]; [|done].
    rewrite run_getitem_bind. simpl in Hd.
    destruct (dict_get rel particle) as [d'|]; [|done].
    assert (d' = d) as -> by congruence.
    unfold extract_particle, target_dir.
    assert (Hloop : ∀ st',
      for_each (compressed_files d) (λ f0, set_f f0;; extract_file f0) st' =
      mkRun (Raised (FileNotFoundError (Pathlib.of_name f))) (with_f st' f) []
      ∨ fs st' ≠ fs st).
    { intros st'. destruct (decide (fs st' = fs st)) as [Hfs|]; [left|by right].
      rewrite Hfiles, run_for_each_cons.
      assert (Hfirst : (set_f f;; extract_file f) st' =
                mkRun (Raised (FileNotFoundError (Pathlib.of_name f)))
                      (with_f st' f) []).
      { erewrite run_bind_eq by reflexivity. simpl.
        rewrite extract_file_missing; [done|]. simpl. by rewrite Hfs. }
      by rewrite run_bind, Hfirst. }
    destruct (decide (file_type d = "ace")) as [Hace|Hnace].
    - erewrite run_bind_eq by reflexivity. simpl.
      destruct (Hloop (with_extraction_dir st ace_files_dir)) as [->|Hne];
        [done | by destruct Hne].
    - destruct Hty as [?|Hendf]; [done|]. rewrite decide_True by done.
      erewrite run_bind_eq by reflexivity. simpl.
      destruct (Hloop (with_extraction_dir st endf_files_dir)) as [->|Hne];
        [done | by destruct Hne]. }
  by rewrite run_bind, Hbody.
Qed.

(** X7.  The choice of the target directory has an [if] and an [elif] and no
    [else].  For a table entry whose file type is neither ['ace'] nor
    ['endf'] the directory variable is left as it is: the archives of that
    particle are extracted into the directory chosen for the particle
    before it, and, when none was chosen yet, the first readable archive is
    announced and then the run raises [NameError]. *)
Theorem unknown_file_type_reuses_the_directory (d : Details) (st : state) :
  file_type d ≠ "ace" → file_type d ≠ "endf" →
  (∀ dir, var_extraction_dir st = Some dir →
     extractions (trace (extract_particle d st))
       `prefix_of` (route dir <$> compressed_files d) ∧
     (res (extract_particle d st) = Done () →
      extractions (trace (extract_particle d st))
      = route dir <$> compressed_files d)) ∧
  (∀ f archives content ms,
     var_extraction_dir st = None →
     compressed_files d = f :: archives →
     fs st !! Pathlib.of_name f = Some content →
     (if Str.endswith f ".zip" then zip_members content
      else tar_members content) = Some ms →
     extract_particle d st =
     mkRun (Raised (NameError "extraction_dir")) (with_f st f)
           [Print ("Extracting " +:+ f +:+ "...")]).
Proof.
  intros Hnace Hnendf. unfold extract_particle.
  rewrite !decide_False by done. split.
  - intros dir Hdir. rewrite (run_bind_skip _ _ _ ()) by done.
    by apply extract_archives_plan.
  - intros f archives content ms Hdir Hfiles Hfile Hms.
    rewrite (run_bind_skip _ _ _ ()) by done.
    rewrite Hfiles, run_for_each_cons.
    assert (Hfile' :
      (set_f f;; extract_file f) st =
      mkRun (Raised (NameError "extraction_dir")) (with_f st f)
            [Print ("Extracting " +:+ f +:+ "...")]).
    { erewrite run_bind_eq by reflexivity. simpl.
      unfold extract_file, open_archive.
      destruct (Str.endswith f ".zip"); run_simpl;
        rewrite Hfile, Hms; simpl; by rewrite Hdir. }
    by rewrite run_bind, Hfile'.
Qed.





End Extraction_edges.


Lemma missing_archive_stops_the_run_witness :
  empty_fs !! Pathlib.of_name "ENDF-B-VII.1-photoat.zip" = None ∧
  main (C := toy) (mkArgs ["out"] false true "earliest" ["photon"])
    (initial empty_fs)
  = mkRun (Raised (FileNotFoundError
                     (Pathlib.of_name "ENDF-B-VII.1-photoat.zip")))
          (with_f (with_extraction_dir (initial empty_fs) endf_files_dir)
                  "ENDF-B-VII.1-photoat.zip") [].
Proof.
  split; [reflexivity|].
  etrans.
  - eapply (missing_archive_stops_the_run (C := toy)
              (mkArgs ["out"] false true "earliest" ["photon"])
              (initial empty_fs) "photon" "ENDF-B-VII.1-photoat.zip");
      reflexivity.
  - reflexivity.
Defined.

Lemma unknown_file_type_reuses_the_directory_witness :
  file_type hdf5_details ≠ "ace" ∧ file_type hdf5_details ≠ "endf" ∧
  extract_particle (C := toy) hdf5_details (initial toy_fs)
  = mkRun (Raised (NameError "extraction_dir"))
          (with_f (initial toy_fs) "ENDF-B-VII.1-tsl.tar.gz")
          [Print "Extracting ENDF-B-VII.1-tsl.tar.gz..."].
Proof.
  assert (Hace : file_type hdf5_details ≠ "ace") by discriminate.
  assert (Hendf : file_type hdf5_details ≠ "endf") by discriminate.
  split; [exact Hace|]. split; [exact Hendf|].
  destruct (unknown_file_type_reuses_the_directory (C := toy) hdf5_details
              (initial toy_fs) Hace Hendf) as [_ Hnone].
  apply (Hnone "ENDF-B-VII.1-tsl.tar.gz" [] "tsl" []); reflexivity.
Defined.


(** ** The patcher, edge cases *)

Section Patcher_edges.
Context `{C : Collaborators}.
Implicit Types (args : Args) (t : list event).
Import StrFacts.




#[global] Instance keeps_lengths_compositional : Compositional keeps_lengths.
Proof.
  split.
  - intros st p text Hp. by exists text.
  - intros st1 t1 st2 t2 st3 H12 H23 p text Hp.
    destruct (H12 p text Hp) as (text' & Hp' & Hlen' & Hsame').
    destruct (H23 p text' Hp') as (text'' & Hp'' & Hlen'' & Hsame'').
    exists text''. split; [done|]. split; [by rewrite Hlen''|].
    intros ??. by rewrite Hsame'', Hsame'.
Qed.





End Patcher_edges.

(** ** Running the patcher again *)

Section Rerun.
Context `{C : Collaborators}.
Import StrFacts.



End Rerun.





(** ** Conversion, edge cases *)

Section Conversion_edges.
Context `{C : Collaborators}.
Implicit Types (rd : Dict (Dict Details)) (args : Args) (t : list event).

Lemma last_export_app t1 t2 (p : Path) :
  last_export (t1 ++ t2) p =
  match last_export t2 p with
  | Some bytes => Some bytes
  | None => last_export t1 p
  end.
Proof.
  induction t1 as [|e t1 IH]; simpl.
  - by destruct (last_export t2 p).
  - rewrite IH. by destruct (last_export t2 p).
Qed.

#[global] Instance exports_win_compositional : Compositional exports_win.
Proof.
  split; [done|].
  intros st1 t1 st2 t2 st3 H12 H23 p.
  rewrite last_export_app, H23, H12.
  by destruct (last_export t2 p).
Qed.

Lemma export_to_hdf5_wins (data : Record_) (h5_file : Path) (libver : string) :
  satisfies exports_win (export_to_hdf5 data h5_file libver).
Proof.
  intros st p. unfold export_to_hdf5. run_simpl.
  destruct (decide (h5_file = p)) as [->|Hne].
  - apply lookup_insert_eq.
  - by apply lookup_insert_ne.
Qed.

(** X13.  The destination after conversion: in every run of the stage, on any
    table, complete or not, each path holds the bytes of the last record
    exported to it, and every path nothing was exported to holds what it
    held before.  So two records with the same derived name leave one
    file, that of the later one, and a run that raises leaves the
    artifacts exported so far in place. *)
Theorem last_export_wins rd args (st : state) (p : Path) :
  fs (final (generate_hdf5_library rd args st)) !! p =
  match last_export (trace (generate_hdf5_library rd args st)) p with
  | Some bytes => Some bytes
  | None => fs st !! p
  end.
Proof.
  revert p.
  change (exports_win st (trace (generate_hdf5_library rd args st))
            (final (generate_hdf5_library rd args st))).
  revert st. change (satisfies exports_win (generate_hdf5_library rd args)).
  unfold generate_hdf5_library, make_destinations, convert_particle,
    sorted_files, convert_ace, convert_endf, from_ace, from_endf,
    register_file, print, set_library.
  repeat first
    [ apply export_to_hdf5_wins
    | apply sat_emit; intros st p; done
    | apply sat_modify; intros st p; done
    | emits_step ].
Qed.














End Conversion_edges.


